(** * A wallet-connection component: detection, connect toggle and view

  Shallow embedding of [src/App.tsx] (the React component [App]), of the
  [refreshChain] callback of the last listing of [README.md], and a model of
  the chain id formatter of [./utils].

  The component is event driven.  An [async] function runs synchronously up
  to its next [await], is suspended there, and is resumed when the awaited
  promise settles.  We therefore embed the bodies of the component's
  functions as programs of a small free monad [Async] whose operations are
  the effects the component performs (the two [useState] setters, the
  provider detection of [@metamask/detect-provider], [window.ethereum.request]
  and [window.ethereum.on]), and we give the component a labelled step
  function whose labels are what the outside world does to it: a click on
  the button, the settlement of a pending promise, an event emitted by the
  provider.

  The button on screen carries the handler of the last render, and React
  renders again only some time after a state cell has changed.  A step is
  therefore taken against the render that is on screen ([stepAt]), which
  may be older than the cells; [step] is the case in which React has
  rendered the current cells. *)

From Stdlib Require Import List String Ascii Bool Arith NArith Lia.
From ExtLib Require Import Structures.Monad.
Import ListNotations MonadNotation.
Open Scope string_scope.
Open Scope monad_scope.

Set Implicit Arguments.

(* ===================================================================== *)
(** ** The outside world: the injected provider *)
(* ===================================================================== *)

(** [window.ethereum], as far as the component can observe it without issuing
  a request: the [isMetaMask] flag. *)
Record Provider := { isMetaMask : bool }.

(** [detectEthereumProvider({ silent: true })] *)
Record DetectOptions := { silent : bool }.

(** [window.ethereum.request({ method: ... })] *)
Record RequestArgs := { method : string }.

(** Payload of an event emitted by the provider: [accountsChanged] carries a
  list of addresses, [chainChanged] a hexadecimal chain id. *)
Inductive Value :=
| VStr (s : string)
| VArr (l : list string).

(** [Boolean(provider)]: an object is truthy, [null] is falsy. *)
Definition Boolean (provider : option Provider) : bool :=
  match provider with
  | Some _ => true
  | None => false
  end.

(** Truthiness of a [boolean | null] value, as used by [? :] and [&&]. *)
Definition truthy (b : option bool) : bool :=
  match b with
  | Some true => true
  | _ => false
  end.

(* ===================================================================== *)
(** ** Asynchronous programs and the component that runs them *)
(* ===================================================================== *)

Section Runtime.

(** [W] is the type of the [wallet] state cell, [R] the type of the value a
    provider request resolves with. *)
Variables W R : Type.

Inductive Async (A : Type) : Type :=
| Ret (a : A)
| SetHasProvider (b : bool) (k : Async A)
| SetWallet (f : W -> W) (k : Async A)
| Detect (opts : DetectOptions) (k : option Provider -> Async A)
| Request (args : RequestArgs) (k : R -> Async A)
| On (name : string) (h : Value -> Async unit) (k : Async A).

Arguments Ret {A} a.

Fixpoint bind {A B : Type} (m : Async A) (f : A -> Async B) : Async B :=
  match m with
  | Ret a => f a
  | SetHasProvider b k => SetHasProvider b (bind k f)
  | SetWallet g k => SetWallet g (bind k f)
  | Detect opts k => Detect opts (fun p => bind (k p) f)
  | Request args k => Request args (fun v => bind (k v) f)
  | On name h k => On name h (bind k f)
  end.

#[export] Instance Monad_Async : Monad Async :=
  {| ret := @Ret; Monad.bind := @bind |}.

(** The effects, as the source writes them. *)
Definition setHasProvider (b : bool) : Async unit :=
  SetHasProvider b (Ret tt).
(** [setWallet(value)] *)
Definition setWallet (w : W) : Async unit :=
  SetWallet (fun _ => w) (Ret tt).
(** [setWallet((wallet) => ...)] *)
Definition setWalletWith (f : W -> W) : Async unit :=
  SetWallet f (Ret tt).
Definition detectEthereumProvider (opts : DetectOptions)
  : Async (option Provider) :=
  Detect opts (fun p => Ret p).
Definition request (args : RequestArgs) : Async R :=
  Request args (fun v => Ret v).
Definition on (name : string) (h : Value -> Async unit) : Async unit :=
  On name h (Ret tt).

(** A suspended [async] function: what it awaits and how it goes on. *)
Inductive Task :=
| TDetect (opts : DetectOptions) (k : option Provider -> Async unit)
| TRequest (args : RequestArgs) (k : R -> Async unit).

Definition isDetect (t : Task) : bool :=
  match t with
  | TDetect _ _ => true
  | TRequest _ _ => false
  end.

(** A call that left the component towards the provider. *)
Inductive Call :=
| CallDetect (opts : DetectOptions)
| CallRequest (args : RequestArgs)
| CallOn (name : string).

(** The component: its two state cells, the suspended functions, the
    callbacks it registered with the provider, the calls it has made so
    far, and the reasons of the rejections nobody handled. *)
Record Component := {
  hasProvider : option bool;
  wallet : W;
  pending : list Task;
  listeners : list (string * (Value -> Async unit));
  calls : list Call;
  unhandled : list string
}.

Definition withHasProvider (b : option bool) (c : Component) : Component :=
  {| hasProvider := b; wallet := wallet c; pending := pending c;
     listeners := listeners c; calls := calls c; unhandled := unhandled c |}.

Definition withWallet (w : W) (c : Component) : Component :=
  {| hasProvider := hasProvider c; wallet := w; pending := pending c;
     listeners := listeners c; calls := calls c; unhandled := unhandled c |}.

Definition suspend (t : Task) (call : Call) (c : Component) : Component :=
  {| hasProvider := hasProvider c; wallet := wallet c;
     pending := pending c ++ [t];
     listeners := listeners c; calls := calls c ++ [call];
     unhandled := unhandled c |}.

Definition subscribe (name : string) (h : Value -> Async unit)
           (c : Component) : Component :=
  {| hasProvider := hasProvider c; wallet := wallet c; pending := pending c;
     listeners := listeners c ++ [(name, h)];
     calls := calls c ++ [CallOn name]; unhandled := unhandled c |}.

Definition reject (reason : string) (c : Component) : Component :=
  {| hasProvider := hasProvider c; wallet := wallet c; pending := pending c;
     listeners := listeners c; calls := calls c;
     unhandled := unhandled c ++ [reason] |}.

Fixpoint remove_nth {A : Type} (i : nat) (l : list A) {struct l} : list A :=
  match l, i with
  | [], _ => []
  | _ :: l', 0 => l'
  | x :: l', S i' => x :: remove_nth i' l'
  end.

Definition resume (i : nat) (c : Component) : Component :=
  {| hasProvider := hasProvider c; wallet := wallet c;
     pending := remove_nth i (pending c);
     listeners := listeners c; calls := calls c;
     unhandled := unhandled c |}.

(** Run a function body up to its end or to its next [await]. *)
Fixpoint advance (m : Async unit) (c : Component) : Component :=
  match m with
  | Ret _ => c
  | SetHasProvider b k => advance k (withHasProvider (Some b) c)
  | SetWallet f k => advance k (withWallet (f (wallet c)) c)
  | Detect opts k => suspend (TDetect opts k) (CallDetect opts) c
  | Request args k => suspend (TRequest args k) (CallRequest args) c
  | On name h k => advance k (subscribe name h c)
  end.

(** The provider emits [name]: every callback registered under that name
    is called with the payload, in registration order. *)
Definition emit (name : string) (payload : Value) (c : Component)
  : Component :=
  fold_left
    (fun c' (l : string * (Value -> Async unit)) =>
       if String.eqb (fst l) name then advance (snd l payload) c' else c')
    (listeners c) c.

(** What the outside world can do to the component. *)
Inductive Event :=
| Click
| Detected (i : nat) (provider : option Provider)
| Fulfilled (i : nat) (v : R)
| Rejected (i : nat) (reason : string)
| Emit (name : string) (payload : Value).

(** [onClick c] is the handler the button on screen carries when a click
    arrives at the component [c], if there is a button on screen.  A
    rejected [await] ends its function with the same rejection; none of the
    embedded functions catches one and no caller keeps their promise, so the
    rejection is left unhandled. *)
Variable onClick : Component -> option (Async unit).

Definition stepWith (e : Event) (c : Component) : option Component :=
  match e with
  | Click =>
      match onClick c with
      | Some handler => Some (advance handler c)
      | None => None
      end
  | Detected i provider =>
      match nth_error (pending c) i with
      | Some (TDetect _ k) => Some (advance (k provider) (resume i c))
      | _ => None
      end
  | Fulfilled i v =>
      match nth_error (pending c) i with
      | Some (TRequest _ k) => Some (advance (k v) (resume i c))
      | _ => None
      end
  | Rejected i reason =>
      match nth_error (pending c) i with
      | Some (TRequest _ _) => Some (reject reason (resume i c))
      | _ => None
      end
  | Emit name payload => Some (emit name payload c)
  end.

Fixpoint runWith (es : list Event) (c : Component) : option Component :=
  match es with
  | [] => Some c
  | e :: es' =>
      match stepWith e c with
      | Some c' => runWith es' c'
      | None => None
      end
  end.

End Runtime.

Arguments Ret {W R A} a.
Arguments setHasProvider {W R} b.
Arguments setWallet {W R} w.
Arguments setWalletWith {W R} f.
Arguments detectEthereumProvider {W R} opts.
Arguments request {W R} args.
Arguments on {W R} name h.
Arguments Click {R}.
Arguments Detected {R} i provider.
Arguments Rejected {R} i reason.
Arguments Emit {R} name payload.

(* ===================================================================== *)
(** ** src/App.tsx *)
(* ===================================================================== *)

Module App.

(** [{ accounts }]; the provider answers [eth_requestAccounts] with a
    sequence of address strings. *)
Record Wallet := { accounts : list string }.

Definition initialState : Wallet := {| accounts := [] |}.

Definition Prog : Type -> Type := Async Wallet (list string).
Definition Comp : Type := Component Wallet (list string).

Definition getProvider : Prog unit :=
  provider <- detectEthereumProvider {| silent := true |} ;;
  setHasProvider (Boolean provider).

(** The body of [useEffect(() => { ... getProvider(); }, [])]. *)
Definition effect : Prog unit := getProvider.

Definition updateWallet (accounts : list string) : Prog unit :=
  setWallet {| accounts := accounts |}.

(** [handleConnect] closes over the [wallet] of the render that created
    it. *)
Definition handleConnect (wallet : Wallet) : Prog unit :=
  if (0 <? List.length (accounts wallet))%nat then
    updateWallet []
  else
    accounts <- request {| method := "eth_requestAccounts" |} ;;
    updateWallet accounts.

(** *** The view *)

#[local] Unset Elimination Schemes.
Inductive Node :=
| Text (s : string)
| Element (tag : string) (children : list Node).
#[local] Set Elimination Schemes.

(** [{cond && x}]: [false] and [null] render nothing. *)
Definition when (cond : bool) (x : Node) : list Node :=
  if cond then [x] else [].

(** [{wallet.accounts[0]}]: [undefined] renders nothing. *)
Definition textOf (s : option string) : list Node :=
  match s with
  | Some s => [Text s]
  | None => []
  end.

Definition render (hasProvider : option bool) (wallet : Wallet) : Node :=
  Element "div"
    ([Element "div"
        [Text "Injected Provider ";
         Text (if truthy hasProvider then "DOES" else "DOES NOT");
         Text " Exist"]]
     ++ when (truthy hasProvider)
          (Element "button"
             [Text (if (0 <? List.length (accounts wallet))%nat
                    then "Disconnect MetaMask"
                    else "Connect MetaMask")])
     ++ when (0 <? List.length (accounts wallet))%nat
          (Element "div"
             ([Text "Wallet Accounts: "]
              ++ textOf (nth_error (accounts wallet) 0)))).

Fixpoint hasTag (tag : string) (n : Node) : bool :=
  match n with
  | Text _ => false
  | Element t children =>
      String.eqb t tag || existsb (hasTag tag) children
  end.

Fixpoint textContent (n : Node) : string :=
  match n with
  | Text s => s
  | Element _ children =>
      fold_right (fun c acc => textContent c ++ acc) "" children
  end.

Definition view (c : Comp) : Node := render (hasProvider c) (wallet c).

Definition buttonRendered (c : Comp) : bool := hasTag "button" (view c).

(** [<button onClick={handleConnect}>]: the handler that the render of the
    cells of [shown] attaches to the button, if that render has a button.
    [handleConnect] is created by that render and closes over its
    [wallet]. *)
Definition onClick (shown : Comp) : option (Prog unit) :=
  if buttonRendered shown
  then Some (handleConnect (wallet shown)) else None.

(** A step of the component [c] while the page on screen is still the
    render of [shown].  React renders again some time after a state cell
    has changed; until then a click reaches the handler of the older
    render, whatever the cells of [c] hold by now. *)
Definition stepAt (shown : Comp)
  : Event (list string) -> Comp -> option Comp :=
  stepWith (fun _ => onClick shown).

(** A step taken once React has rendered the current cells: the page on
    screen is the render of [c] itself. *)
Definition step (e : Event (list string)) (c : Comp) : option Comp :=
  stepAt c e c.

(** A run in which React renders again before every event. *)
Definition run : list (Event (list string)) -> Comp -> option Comp :=
  runWith onClick.

(** The two [useState] initial values; nothing has run yet. *)
Definition initial : Comp :=
  {| hasProvider := None; wallet := initialState; pending := [];
     listeners := []; calls := []; unhandled := [] |}.

(** After the first render the effect runs. *)
Definition mount : Comp := advance effect initial.

(** [reachableAt shown c]: the component can be [c] while the page on
    screen is the render of [shown].  The first render shows the initial
    cells and the effect runs after it; from then on events arrive, and
    React renders the current cells again at any time. *)
Inductive reachableAt : Comp -> Comp -> Prop :=
| at_mount : reachableAt initial mount
| at_render shown c : reachableAt shown c -> reachableAt c c
| at_step shown e c c' :
    reachableAt shown c -> stepAt shown e c = Some c' ->
    reachableAt shown c'.

Definition reachable (c : Comp) : Prop :=
  exists shown, reachableAt shown c.

(** The two states of the wallet, decided as the code decides them:
    [wallet.accounts.length > 0]. *)
Inductive Status := Disconnected | Connected.

Definition status (c : Comp) : Status :=
  if (0 <? List.length (accounts (wallet c)))%nat
  then Connected else Disconnected.

(** The two functions that can be found suspended: [getProvider] at its
    [await detectEthereumProvider(...)], and [handleConnect] at its
    [await window.ethereum.request(...)]. *)
Definition detectTask : Task Wallet (list string) :=
  TDetect {| silent := true |}
          (fun provider => setHasProvider (Boolean provider)).

Definition connectTask : Task Wallet (list string) :=
  TRequest {| method := "eth_requestAccounts" |}
           (fun accounts => updateWallet accounts).

Definition detectCall : Call := CallDetect {| silent := true |}.

Definition connectCall : Call :=
  CallRequest {| method := "eth_requestAccounts" |}.

(** What holds of the component in every state it can reach: it is waiting
    for the detection, or the detection found nothing, or it found a
    provider. *)
Inductive Phase (c : Comp) : Prop :=
| Detecting :
    hasProvider c = None -> pending c = [detectTask] ->
    wallet c = initialState -> calls c = [detectCall] ->
    unhandled c = [] -> Phase c
| Absent :
    hasProvider c = Some false -> pending c = [] ->
    wallet c = initialState -> calls c = [detectCall] ->
    unhandled c = [] -> Phase c
| Present :
    hasProvider c = Some true ->
    Forall (eq connectTask) (pending c) ->
    (exists rest, calls c = detectCall :: rest
                  /\ Forall (eq connectCall) rest) ->
    Phase c.

(** The component once the detection has settled with [provider]. *)
Definition detected (provider : option Provider) : Comp :=
  {| hasProvider := Some (Boolean provider); wallet := initialState;
     pending := []; listeners := []; calls := [detectCall];
     unhandled := [] |}.

(** The text of the first child of the root: the provider line. *)
Definition providerLine (n : Node) : string :=
  match n with
  | Element _ (first :: _) => textContent first
  | _ => ""
  end.

Record Inv (c : Comp) : Prop := {
  inv_listeners : listeners c = [];
  inv_phase : Phase c
}.

End App.

(* ===================================================================== *)
(** ** README.md, last listing: the [chainChanged] callback *)
(* ===================================================================== *)

Module Readme.

(** [{ accounts: [], balance: "", chainId: "" }].  The callback stores the
    payload of the event as it comes, so [chainId] holds a [Value]; the
    provider sends a hexadecimal string. *)
Record Wallet := {
  accounts : list string;
  balance : string;
  chainId : Value
}.

Definition initialState : Wallet :=
  {| accounts := []; balance := ""; chainId := VStr "" |}.

Definition Prog : Type -> Type := Async Wallet Value.
Definition Comp : Type := Component Wallet Value.

(** [const refreshChain = (chainId: any) => {
       setWallet((wallet) => ({ ...wallet, chainId }))
     }] *)
Definition refreshChain (chainId : Value) : Prog unit :=
  setWalletWith
    (fun wallet =>
       {| accounts := accounts wallet;
          balance := balance wallet;
          chainId := chainId |}).

(** [window.ethereum.on("chainChanged", refreshChain)] *)
Definition subscribeChain : Prog unit :=
  on "chainChanged" refreshChain.

(** A component connected on chain [0x1], with some [accountsChanged]
    callback and then [refreshChain] subscribed. *)
Definition onMainnet : Comp :=
  advance
    (on "accountsChanged" (fun _ => Ret tt) ;; subscribeChain)
    {| hasProvider := Some true;
       wallet := {| accounts := ["0xabc"]; balance := "1.00";
                    chainId := VStr "0x1" |};
       pending := []; listeners := []; calls := []; unhandled := [] |}.

End Readme.

(* ===================================================================== *)
(** ** ./utils: the chain id formatter *)
(* ===================================================================== *)

Module Utils.

(** Modelled from the spec: [./utils] is not among the sources; this is the
    value of one digit of the "hexadecimal string" of the spec, in either
    case. *)
Definition hexDigit (c : ascii) : option N :=
  let n := N_of_ascii c in
  if ((48 <=? n) && (n <=? 57))%N then Some (n - 48)%N
  else if ((97 <=? n) && (n <=? 102))%N then Some (n - 87)%N
  else if ((65 <=? n) && (n <=? 70))%N then Some (n - 55)%N
  else None.

(** Modelled from the spec: [./utils] is not among the sources; "as a
    base-16 integer": the digits are read left to right, any other character
    is malformed input. *)
Fixpoint parseHex (s : string) (acc : N) : option N :=
  match s with
  | EmptyString => Some acc
  | String c s' =>
      match hexDigit c with
      | Some d => parseHex s' (16 * acc + d)%N
      | None => None
      end
  end.

(** Modelled from the spec: [formatChainAsNum] is imported from [./utils],
    a file that is not among the sources.  The spec: "parses a
    [0x]-prefixed hexadecimal string as a base-16 integer.  Fails (or returns
    a sentinel) on malformed input".  Failure is [None]. *)
Definition formatChainAsNum (hexChainId : string) : option N :=
  match hexChainId with
  | String "0" (String "x" (String c s)) => parseHex (String c s) 0
  | _ => None
  end.

(** What a [0x]-prefixed hexadecimal string is, said without the parser.
    A digit is written [0]-[9], or as a letter in either case, [a]-[f] or
    [A]-[F]; a string is [0x] followed by its digits, each with its own
    case; the digits denote an integer in base 16. *)
Definition hexChar (upper : bool) (d : N) : ascii :=
  if (d <? 10)%N then ascii_of_N (48 + d)
  else if upper then ascii_of_N (55 + d)
  else ascii_of_N (87 + d).

Definition base16 (ds : list N) : N :=
  fold_left (fun acc d => (16 * acc + d)%N) ds 0%N.

Definition hexString (ds : list (bool * N)) : string :=
  "0x" ++ string_of_list_ascii
            (map (fun d => hexChar (fst d) (snd d)) ds).

(** At least one digit, every digit below 16. *)
Definition hexDigits (ds : list (bool * N)) : Prop :=
  ds <> [] /\ Forall (fun d => (snd d < 16)%N) ds.

End Utils.

(* ===================================================================== *)
(** ** Vocabulary for the behaviour of whole runs *)
(* ===================================================================== *)

Module AppRuns.

Import App.

(** The component [c] after [n] further [eth_requestAccounts] requests have
    been issued: only the record of the calls made has grown. *)
Definition afterRequests (n : nat) (c : Comp) : Comp :=
  {| hasProvider := hasProvider c; wallet := wallet c;
     pending := pending c; listeners := listeners c;
     calls := calls c ++ repeat connectCall n;
     unhandled := unhandled c |}.

(** The three pages the component can show. *)
Definition providerDiv (exists_ : string) : Node :=
  Element "div" [Text "Injected Provider "; Text exists_; Text " Exist"].

Definition pageNoProvider : Node :=
  Element "div" [providerDiv "DOES NOT"].

Definition pageConnect : Node :=
  Element "div"
    [providerDiv "DOES"; Element "button" [Text "Connect MetaMask"]].

Definition pageConnected (account : string) : Node :=
  Element "div"
    [providerDiv "DOES"; Element "button" [Text "Disconnect MetaMask"];
     Element "div" [Text "Wallet Accounts: "; Text account]].

(** What happens to the page and the component, in order: an event
    arrives, or React renders the current cells. *)
Inductive Act :=
| Do (e : Event (list string))
| Rerender.

(** [runAt acts shown c]: the acts in order, from the component [c] with the
    render of [shown] on screen; the result is the render on screen and the
    component at the end. *)
Fixpoint runAt (acts : list Act) (shown c : Comp) : option (Comp * Comp) :=
  match acts with
  | [] => Some (shown, c)
  | Rerender :: acts' => runAt acts' c c
  | Do e :: acts' =>
      match stepAt shown e c with
      | Some c' => runAt acts' shown c'
      | None => None
      end
  end.

End AppRuns.

(* ===================================================================== *)
(** ** README.md, last listing: the [accountsChanged] callback *)
(* ===================================================================== *)

Module ReadmeAccounts.

Import Readme.

(** [accounts.length] for a payload typed [any]: the number of elements of
    an array, the number of characters of a string. *)
Definition lengthOf (v : Value) : nat :=
  match v with
  | VStr s => String.length s
  | VArr l => List.length l
  end.

(** [const refreshAccounts = (accounts: any) => {
       if (accounts.length > 0) {
         updateWallet(accounts)
       } else {
         // if length 0, user is disconnected
         setWallet(initialState)
       }
     }]
    [updateWallet] is the last statement of its branch; it is a parameter
    here, because its requests carry parameters that [RequestArgs] does not
    record. *)
Definition refreshAccounts (updateWallet : Value -> Prog unit)
           (accounts : Value) : Prog unit :=
  if (0 <? lengthOf accounts)%nat then
    updateWallet accounts
  else
    setWallet initialState.

(** A Connected component with both callbacks subscribed, in the order of
    the listing; its [updateWallet] does nothing. *)
Definition subscribed : Comp :=
  advance
    (on "accountsChanged" (refreshAccounts (fun _ => Ret tt)) ;;
     subscribeChain)
    {| hasProvider := Some true;
       wallet := {| accounts := ["0xabc"]; balance := "1.00";
                    chainId := VStr "0x1" |};
       pending := []; listeners := []; calls := []; unhandled := [] |}.

End ReadmeAccounts.

(* ===================================================================== *)
(** ** Facts about the runtime *)
(* ===================================================================== *)

Section RuntimeFacts.

Variables W R : Type.

Lemma remove_nth_last (A : Type) (l : list A) (x : A) :
  remove_nth (List.length l) (l ++ [x]) = l.
Proof.
  induction l as [|y l IH]; simpl; [reflexivity|].
  now rewrite IH.
Qed.

Lemma nth_error_last (A : Type) (l : list A) (x : A) :
  nth_error (l ++ [x]) (List.length l) = Some x.
Proof.
  induction l as [|y l IH]; simpl; [reflexivity | exact IH].
Qed.

Lemma Forall_remove_nth (A : Type) (P : A -> Prop) (l : list A) :
  Forall P l -> forall i, Forall P (remove_nth i l).
Proof.
  induction 1 as [|x l Hx Hl IH]; intros i; simpl; [constructor|].
  destruct i; [assumption | constructor; auto].
Qed.

Lemma Forall_nth_error (A : Type) (P : A -> Prop) (l : list A) i x :
  Forall P l -> nth_error l i = Some x -> P x.
Proof.
  intros Hl Hx. rewrite Forall_forall in Hl.
  apply Hl. eapply nth_error_In; eassumption.
Qed.

(** With no callback registered, an emitted event reaches nobody. *)
Lemma emit_no_listener (name : string) (payload : Value)
      (c : Component W R) :
  listeners c = [] -> emit name payload c = c.
Proof.
  unfold emit. intros ->. reflexivity.
Qed.

(** Resuming the function that was suspended last. *)
Lemma resume_suspend (t : Task W R) (call : Call) (c : Component W R) :
  resume (List.length (pending c)) (suspend t call c)
  = {| hasProvider := hasProvider c; wallet := wallet c;
       pending := pending c; listeners := listeners c;
       calls := calls c ++ [call]; unhandled := unhandled c |}.
Proof.
  unfold resume, suspend; simpl. now rewrite remove_nth_last.
Qed.

End RuntimeFacts.

(* ===================================================================== *)
(** ** Properties of src/App.tsx *)
(* ===================================================================== *)

Section AppFacts.

Import App.

Lemma truthy_true (b : option bool) : truthy b = true <-> b = Some true.
Proof.
  destruct b as [[|]|]; simpl; split; congruence.
Qed.

(** The button is in the view exactly when [hasProvider] is [true]. *)
Lemma buttonRendered_truthy (c : Comp) :
  buttonRendered c = truthy (hasProvider c).
Proof.
  unfold buttonRendered, view, render.
  destruct (truthy (hasProvider c));
    destruct (accounts (wallet c)); reflexivity.
Qed.

Lemma onClick_present (c : Comp) :
  hasProvider c = Some true -> onClick c = Some (handleConnect (wallet c)).
Proof.
  intros H. unfold onClick.
  now rewrite buttonRendered_truthy, H.
Qed.

Lemma onClick_absent (c : Comp) :
  hasProvider c <> Some true -> onClick c = None.
Proof.
  intros H. unfold onClick. rewrite buttonRendered_truthy.
  destruct (truthy (hasProvider c)) eqn:E; [|reflexivity].
  apply truthy_true in E. contradiction.
Qed.

Lemma status_connected (c : Comp) :
  status c = Connected <-> accounts (wallet c) <> [].
Proof.
  unfold status. destruct (accounts (wallet c)); simpl; split;
    congruence.
Qed.

Lemma status_disconnected (c : Comp) :
  status c = Disconnected <-> accounts (wallet c) = [].
Proof.
  unfold status. destruct (accounts (wallet c)); simpl; split;
    congruence.
Qed.

(** The two branches of [handleConnect]. *)
Lemma handleConnect_connected (c : Comp) :
  accounts (wallet c) <> [] ->
  advance (handleConnect (wallet c)) c = withWallet {| accounts := [] |} c.
Proof.
  intros H. unfold handleConnect.
  destruct (accounts (wallet c)); [contradiction | reflexivity].
Qed.

Lemma handleConnect_disconnected (c : Comp) :
  accounts (wallet c) = [] ->
  advance (handleConnect (wallet c)) c
  = suspend connectTask
            (CallRequest {| method := "eth_requestAccounts" |}) c.
Proof.
  intros H. unfold handleConnect. rewrite H. reflexivity.
Qed.

Lemma Inv_mount : Inv mount.
Proof.
  split; [reflexivity|].
  apply Detecting; reflexivity.
Qed.

Ltac phases H :=
  destruct H as [Hh Hpe Hw Hc Hu|Hh Hpe Hw Hc Hu|Hh Hpe [rest [Hc Hr]]].

(** The function found suspended at position [i]: the detection, alone and
    first, while [hasProvider] is [null]; a connect request otherwise. *)
Lemma pending_task (c : Comp) (i : nat) (t : Task Wallet (list string)) :
  Phase c -> nth_error (pending c) i = Some t ->
  (t = detectTask /\ i = 0 /\ hasProvider c = None
   /\ pending c = [detectTask] /\ wallet c = initialState
   /\ calls c = [detectCall] /\ unhandled c = [])
  \/ (t = connectTask /\ hasProvider c = Some true
      /\ Forall (eq connectTask) (pending c)
      /\ exists rest, calls c = detectCall :: rest
                      /\ Forall (eq connectCall) rest).
Proof.
  intros Hp Ht. phases Hp.
  - left. rewrite Hpe in Ht. destruct i as [|[|i]]; try discriminate.
    injection Ht as <-. repeat split; assumption.
  - rewrite Hpe in Ht. destruct i; discriminate.
  - right. pose proof (Forall_nth_error _ Hpe Ht) as <-.
    repeat split; eauto.
Qed.

(** The step of a [Detected], [Fulfilled] or [Rejected] event exists only
    if some function is suspended at the position it names. *)
Ltac task_at Hstep i t Ht :=
  unfold step, stepAt, stepWith in Hstep;
  match type of Hstep with
  | context [nth_error ?l i] =>
      destruct (nth_error l i) as [t|] eqn:Ht; [|discriminate Hstep]
  end.

(** What [handleConnect] does to the component, whatever render created
    it. *)
Lemma handleConnect_advance (w : Wallet) (c : Comp) :
  advance (handleConnect w) c
  = match accounts w with
    | [] => suspend connectTask connectCall c
    | _ :: _ => withWallet {| accounts := [] |} c
    end.
Proof.
  unfold handleConnect. destruct (accounts w); reflexivity.
Qed.

(** The invariant is kept by every step, also by a click that reaches the
    handler of an older render, as long as that render does not show a
    button the cells have no provider for. *)
Lemma Inv_stepAt (shown : Comp) (e : Event (list string)) (c c' : Comp) :
  Inv c -> (hasProvider shown = Some true -> hasProvider c = Some true) ->
  stepAt shown e c = Some c' ->
  Inv c' /\ (hasProvider c = Some true -> hasProvider c' = Some true).
Proof.
  intros [Hl Hp] Hlag Hstep.
  destruct e as [|i p|i v|i reason|name payload].
  - (* Click *)
    unfold stepAt, stepWith in Hstep.
    destruct (truthy (hasProvider shown)) eqn:E.
    + apply truthy_true in E.
      rewrite onClick_present in Hstep by assumption.
      injection Hstep as <-. specialize (Hlag E).
      rewrite handleConnect_advance.
      phases Hp; try congruence.
      destruct (accounts (wallet shown)).
      * split; [|intros _; exact Hh].
        split; [exact Hl|]. apply Present; simpl.
        -- assumption.
        -- apply Forall_app; split; [assumption | repeat constructor].
        -- exists (rest ++ [connectCall])%list. rewrite Hc.
           split; [reflexivity|].
           apply Forall_app; split; [assumption | repeat constructor].
      * split; [|intros _; exact Hh].
        split; [exact Hl|]. apply Present; simpl; eauto.
    + rewrite onClick_absent in Hstep; [discriminate|].
      intros H. apply truthy_true in H. congruence.
  - (* Detected *)
    task_at Hstep i t Ht.
    destruct (pending_task _ Hp Ht)
      as [(-> & -> & Hh & Hpe & Hw & Hc & Hu)|(-> & _)];
      [|discriminate].
    injection Hstep as <-. split; [|intros H; congruence].
    split; [exact Hl|].
    destruct p as [p|];
      [apply Present | apply Absent]; simpl; rewrite ?Hpe; simpl; eauto.
  - (* Fulfilled *)
    task_at Hstep i t Ht.
    destruct (pending_task _ Hp Ht) as [(-> & _)|(-> & Hh & Hpe & Hc)];
      [discriminate|].
    injection Hstep as <-. split; [|intros _; exact Hh].
    split; [exact Hl|].
    apply Present; simpl; eauto using Forall_remove_nth.
  - (* Rejected *)
    task_at Hstep i t Ht.
    destruct (pending_task _ Hp Ht) as [(-> & _)|(-> & Hh & Hpe & Hc)];
      [discriminate|].
    injection Hstep as <-. split; [|intros _; exact Hh].
    split; [exact Hl|].
    apply Present; simpl; eauto using Forall_remove_nth.
  - (* Emit *)
    unfold stepAt, stepWith in Hstep.
    rewrite emit_no_listener in Hstep by assumption.
    injection Hstep as <-. split; [split; assumption | auto].
Qed.

Lemma Inv_step (e : Event (list string)) (c c' : Comp) :
  Inv c -> step e c = Some c' -> Inv c'.
Proof.
  intros Hi Hstep.
  exact (proj1 (@Inv_stepAt c e c c' Hi (fun H => H) Hstep)).
Qed.

(** The page on screen never shows a button before the cells have a
    provider. *)
Lemma reachableAt_Inv (shown c : Comp) :
  reachableAt shown c ->
  Inv c /\ (hasProvider shown = Some true -> hasProvider c = Some true).
Proof.
  induction 1 as [|shown c _ [IH _]|shown e c c' _ [IH Hlag] Hstep].
  - split; [exact Inv_mount | discriminate].
  - split; [exact IH | auto].
  - destruct (@Inv_stepAt shown e c c' IH Hlag Hstep) as [Hi Hkeep].
    split; [exact Hi | auto].
Qed.

Lemma reachable_Inv (c : Comp) : reachable c -> Inv c.
Proof.
  intros [shown H]. exact (proj1 (reachableAt_Inv H)).
Qed.

Lemma reach_mount : reachable mount.
Proof.
  exists initial. exact at_mount.
Qed.

Lemma reach_step (e : Event (list string)) (c c' : Comp) :
  reachable c -> step e c = Some c' -> reachable c'.
Proof.
  intros [shown H] Hstep. exists c.
  eapply at_step; [eapply at_render; exact H | exact Hstep].
Qed.

Lemma run_reachable (es : list (Event (list string))) (c c' : Comp) :
  reachable c -> run es c = Some c' -> reachable c'.
Proof.
  revert c. induction es as [|e es IH]; intros c Hc Hrun.
  - injection Hrun as <-. exact Hc.
  - unfold run in Hrun; simpl in Hrun. fold (run es) in Hrun.
    destruct (stepWith onClick e c) as [c1|] eqn:E; [|discriminate].
    apply (IH c1); [|exact Hrun].
    eapply reach_step; eassumption.
Qed.

(** What each event does to the wallet of a reachable component. *)
Lemma step_wallet (e : Event (list string)) (c c' : Comp) :
  reachable c -> step e c = Some c' ->
  match e with
  | Click =>
      hasProvider c = Some true
      /\ wallet c' = match status c with
                     | Connected => {| accounts := [] |}
                     | Disconnected => wallet c
                     end
  | Fulfilled i addrs =>
      nth_error (pending c) i = Some connectTask
      /\ wallet c' = {| accounts := addrs |}
  | Detected _ _ | Rejected _ _ => wallet c' = wallet c
  | Emit _ _ => c' = c
  end.
Proof.
  intros Hc Hstep. apply reachable_Inv in Hc. destruct Hc as [Hl Hp].
  destruct e as [|i p|i v|i reason|name payload].
  - unfold step, stepAt, stepWith in Hstep.
    destruct (truthy (hasProvider c)) eqn:E.
    + apply truthy_true in E. split; [exact E|].
      rewrite onClick_present in Hstep by assumption.
      injection Hstep as <-. unfold status.
      destruct (accounts (wallet c)) eqn:Ha; simpl.
      * now rewrite handleConnect_disconnected.
      * now rewrite handleConnect_connected by congruence.
    + rewrite onClick_absent in Hstep; [discriminate|].
      intros H. apply truthy_true in H. congruence.
  - task_at Hstep i t Ht.
    destruct (pending_task _ Hp Ht) as [(-> & _)|(-> & _)];
      [|discriminate].
    injection Hstep as <-. reflexivity.
  - task_at Hstep i t Ht.
    destruct (pending_task _ Hp Ht) as [(-> & _)|(-> & _)];
      [discriminate|].
    split; [reflexivity|]. injection Hstep as <-. reflexivity.
  - task_at Hstep i t Ht.
    destruct t; [discriminate|]. injection Hstep as <-. reflexivity.
  - unfold step, stepAt, stepWith in Hstep.
    rewrite emit_no_listener in Hstep by assumption.
    now injection Hstep as <-.
Qed.

Lemma status_wallet (c c' : Comp) :
  wallet c' = wallet c -> status c' = status c.
Proof.
  unfold status. now intros ->.
Qed.

(** C1.  In a Disconnected state (accounts empty), [handleConnect] issues
    one [eth_requestAccounts] request; when that request resolves with the
    non-empty list [a :: rest], the wallet's accounts are exactly that list,
    [accounts[0]] is [a], and the wallet is Connected.  Nothing else of the
    component changes.  With a provider present, a click on the button is
    what runs [handleConnect]. *)
Theorem handleConnect_success (c : Comp) (a : string) (rest : list string) :
  accounts (wallet c) = [] ->
  let c1 := advance (handleConnect (wallet c)) c in
  let c2 := {| hasProvider := hasProvider c;
               wallet := {| accounts := a :: rest |};
               pending := pending c; listeners := listeners c;
               calls := (calls c ++ [connectCall])%list;
               unhandled := unhandled c |} in
  calls c1 = (calls c ++ [connectCall])%list
  /\ step (Fulfilled (List.length (pending c)) (a :: rest)) c1 = Some c2
  /\ accounts (wallet c2) = a :: rest
  /\ nth_error (accounts (wallet c2)) 0 = Some a
  /\ status c2 = Connected
  /\ (if truthy (hasProvider c)
      then step Click c = Some c1 else step Click c = None).
Proof.
  intros Hacc c1 c2. subst c1 c2.
  rewrite handleConnect_disconnected by assumption.
  repeat split.
  - unfold step, stepAt, stepWith. simpl pending.
    rewrite nth_error_last. unfold connectTask.
    rewrite resume_suspend. reflexivity.
  - destruct (truthy (hasProvider c)) eqn:E; unfold step, stepAt, stepWith.
    + apply truthy_true in E. rewrite onClick_present by assumption.
      now rewrite handleConnect_disconnected.
    + rewrite onClick_absent; [reflexivity|].
      intros H. apply truthy_true in H. congruence.
Qed.

Lemma handleConnect_success_witness :
  accounts (wallet (detected (Some {| isMetaMask := true |}))) = []
  /\ step (Fulfilled 0 ["0xabc"])
          (advance (handleConnect initialState)
                   (detected (Some {| isMetaMask := true |})))
     = Some {| hasProvider := Some true;
               wallet := {| accounts := ["0xabc"] |};
               pending := []; listeners := [];
               calls := [detectCall; connectCall]; unhandled := [] |}.
Proof.
  split; [reflexivity|].
  exact (proj1 (proj2 (handleConnect_success
                         (detected (Some {| isMetaMask := true |}))
                         "0xabc" [] eq_refl))).
Defined.

(** C3.  In a Connected state (accounts non-empty), [handleConnect] takes
    its disconnect branch: the accounts list becomes empty, no call leaves
    the component (no provider request, nothing left pending, no
    subscription), and every other field of the component is as before. *)
Theorem handleConnect_disconnect_local (c : Comp) :
  accounts (wallet c) <> [] ->
  let c' := advance (handleConnect (wallet c)) c in
  c' = {| hasProvider := hasProvider c; wallet := {| accounts := [] |};
          pending := pending c; listeners := listeners c;
          calls := calls c; unhandled := unhandled c |}
  /\ accounts (wallet c') = []
  /\ status c' = Disconnected
  /\ calls c' = calls c
  /\ pending c' = pending c
  /\ (if truthy (hasProvider c)
      then step Click c = Some c' else step Click c = None).
Proof.
  intros Hacc c'. subst c'.
  rewrite handleConnect_connected by assumption.
  repeat split.
  destruct (truthy (hasProvider c)) eqn:E; unfold step, stepAt, stepWith.
  - apply truthy_true in E. rewrite onClick_present by assumption.
    now rewrite handleConnect_connected.
  - rewrite onClick_absent; [reflexivity|].
    intros H. apply truthy_true in H. congruence.
Qed.

Lemma handleConnect_disconnect_local_witness :
  accounts {| accounts := ["0xabc"] |} <> []
  /\ step Click {| hasProvider := Some true;
                   wallet := {| accounts := ["0xabc"] |};
                   pending := []; listeners := [];
                   calls := [detectCall; connectCall]; unhandled := [] |}
     = Some {| hasProvider := Some true; wallet := {| accounts := [] |};
               pending := []; listeners := [];
               calls := [detectCall; connectCall]; unhandled := [] |}.
Proof.
  split; [discriminate|].
  exact (proj2 (proj2 (proj2 (proj2 (proj2
    (@handleConnect_disconnect_local
       {| hasProvider := Some true;
          wallet := {| accounts := ["0xabc"] |};
          pending := []; listeners := [];
          calls := [detectCall; connectCall]; unhandled := [] |}
       ltac:(discriminate))))))).
Defined.

(** C4.  In a Disconnected state, when the [eth_requestAccounts] request
    issued by [handleConnect] is rejected with [reason], the function ends
    there: the rejection is recorded as unhandled, the wallet is what it
    was, with an empty accounts list, and [hasProvider] is unchanged. *)
Theorem handleConnect_rejected (c : Comp) (reason : string) :
  accounts (wallet c) = [] ->
  let c1 := advance (handleConnect (wallet c)) c in
  let c2 := {| hasProvider := hasProvider c; wallet := wallet c;
               pending := pending c; listeners := listeners c;
               calls := (calls c ++ [connectCall])%list;
               unhandled := (unhandled c ++ [reason])%list |} in
  step (Rejected (List.length (pending c)) reason) c1 = Some c2
  /\ wallet c2 = wallet c
  /\ accounts (wallet c2) = []
  /\ status c2 = Disconnected
  /\ unhandled c2 = (unhandled c ++ [reason])%list.
Proof.
  intros Hacc c1 c2. subst c1 c2.
  rewrite handleConnect_disconnected by assumption.
  repeat split; simpl; try assumption.
  - unfold step, stepAt, stepWith. simpl pending.
    rewrite nth_error_last. unfold connectTask.
    rewrite resume_suspend. reflexivity.
  - apply status_disconnected. exact Hacc.
Qed.

Lemma handleConnect_rejected_witness :
  accounts (wallet (detected (Some {| isMetaMask := true |}))) = []
  /\ step (Rejected 0 "User rejected the request.")
          (advance (handleConnect initialState)
                   (detected (Some {| isMetaMask := true |})))
     = Some {| hasProvider := Some true; wallet := initialState;
               pending := []; listeners := [];
               calls := [detectCall; connectCall];
               unhandled := ["User rejected the request."] |}.
Proof.
  split; [reflexivity|].
  exact (proj1 (handleConnect_rejected
                  (detected (Some {| isMetaMask := true |}))
                  "User rejected the request." eq_refl)).
Defined.

(** C5.  Whenever [hasProvider] is not [true] (it is [false] or [null]),
    the view contains no button, whatever the wallet and the rest of the
    component are. *)
Theorem no_provider_no_button (c : Comp) :
  hasProvider c <> Some true -> hasTag "button" (view c) = false.
Proof.
  intros H. fold (buttonRendered c). rewrite buttonRendered_truthy.
  destruct (truthy (hasProvider c)) eqn:E; [|reflexivity].
  apply truthy_true in E. contradiction.
Qed.

Lemma no_provider_no_button_witness :
  hasProvider (withWallet {| accounts := ["0xabc"] |} (detected None))
  <> Some true
  /\ hasTag "button"
       (view (withWallet {| accounts := ["0xabc"] |} (detected None)))
     = false.
Proof.
  split; [discriminate|].
  exact (@no_provider_no_button
           (withWallet {| accounts := ["0xabc"] |} (detected None))
           ltac:(discriminate)).
Defined.

(** C6, as the spec words it, fails: a provider whose [isMetaMask] flag is
    [false] is detected like any other, and the button is rendered. *)
Lemma button_without_isMetaMask :
  step (Detected 0 (Some {| isMetaMask := false |})) mount
  = Some (detected (Some {| isMetaMask := false |}))
  /\ ~ (buttonRendered (detected (Some {| isMetaMask := false |})) = true
        <-> isMetaMask {| isMetaMask := false |} = true).
Proof.
  split; [reflexivity|].
  intros [H _]. specialize (H eq_refl). discriminate H.
Qed.

(** C6, amended.  The component never reads [isMetaMask].  The button is in
    the view exactly when [hasProvider] is [true]; the detection sets
    [hasProvider] to [Boolean(provider)], so after it the button is rendered
    exactly when some provider was found, and two providers that differ in
    their flag lead to the same component. *)
Theorem button_gated_by_hasProvider (c : Comp) (provider : option Provider)
        (p q : Provider) :
  (buttonRendered c = true <-> hasProvider c = Some true)
  /\ step (Detected 0 provider) mount = Some (detected provider)
  /\ (buttonRendered (detected provider) = true <-> provider <> None)
  /\ detected (Some p) = detected (Some q).
Proof.
  repeat split.
  - rewrite buttonRendered_truthy. apply truthy_true.
  - rewrite buttonRendered_truthy. apply truthy_true.
  - destruct provider; simpl; [discriminate|].
    unfold buttonRendered; simpl. discriminate.
  - destruct provider; [reflexivity | contradiction].
Qed.

(** C7, as the spec words it, fails: with a provider present, the mount
    effect and the settled detection leave the wallet empty, and the only
    call made is the detection itself: no [eth_accounts], no [eth_chainId],
    no subscription. *)
Lemma mount_fetches_nothing :
  run [Detected 0 (Some {| isMetaMask := true |})] mount
  = Some (detected (Some {| isMetaMask := true |}))
  /\ calls (detected (Some {| isMetaMask := true |})) = [detectCall]
  /\ ~ In (CallRequest {| method := "eth_accounts" |})
          (calls (detected (Some {| isMetaMask := true |})))
  /\ ~ In (CallRequest {| method := "eth_chainId" |})
          (calls (detected (Some {| isMetaMask := true |})))
  /\ listeners (detected (Some {| isMetaMask := true |})) = []
  /\ wallet (detected (Some {| isMetaMask := true |})) = initialState.
Proof.
  repeat split; simpl; intros [H|[]]; discriminate H.
Qed.

(** C7, amended.  On mount the detector is called once and the component
    waits for it.  When the detection settles, only [hasProvider] is set, to
    [Boolean(provider)]: the wallet keeps its initial empty accounts list and
    nothing is requested or subscribed.  In every reachable state the calls
    made so far are that one detection followed only by
    [eth_requestAccounts] requests, and no callback is registered. *)
Theorem mount_only_detects (c : Comp) (provider : option Provider) :
  reachable c ->
  mount = {| hasProvider := None; wallet := initialState;
             pending := [detectTask]; listeners := [];
             calls := [detectCall]; unhandled := [] |}
  /\ step (Detected 0 provider) mount
     = Some {| hasProvider := Some (Boolean provider);
               wallet := initialState; pending := []; listeners := [];
               calls := [detectCall]; unhandled := [] |}
  /\ (exists rest, calls c = detectCall :: rest
                   /\ Forall (eq connectCall) rest)
  /\ listeners c = [].
Proof.
  intros Hc. apply reachable_Inv in Hc. destruct Hc as [Hl Hp].
  repeat split; try assumption.
  destruct Hp as [Hh Hpe Hw Hc Hu|Hh Hpe Hw Hc Hu|Hh Hpe Hc];
    try (exists []; split; [assumption | constructor]).
  exact Hc.
Qed.

Lemma mount_only_detects_witness :
  reachable (detected (Some {| isMetaMask := true |}))
  /\ (exists rest,
        calls (detected (Some {| isMetaMask := true |}))
        = detectCall :: rest
        /\ Forall (eq connectCall) rest)
  /\ listeners (detected (Some {| isMetaMask := true |})) = [].
Proof.
  assert (H : reachable (detected (Some {| isMetaMask := true |}))).
  { apply (@reach_step (Detected 0 (Some {| isMetaMask := true |})) mount).
    - exact reach_mount.
    - reflexivity. }
  split; [exact H|].
  exact (proj2 (proj2 (mount_only_detects
                         (Some {| isMetaMask := true |}) H))).
Defined.

(** C2, as the spec words it, fails: the component subscribes to nothing,
    so in a Connected state an [accountsChanged] event with an empty list
    changes nothing and the wallet stays Connected. *)
Lemma accountsChanged_empty_ignored :
  exists c,
    run [Detected 0 (Some {| isMetaMask := true |}); Click;
         Fulfilled 0 ["0xabc"]] mount = Some c
    /\ status c = Connected
    /\ step (Emit "accountsChanged" (VArr [])) c = Some c
    /\ ~ (forall c', step (Emit "accountsChanged" (VArr [])) c = Some c' ->
                     status c' = Disconnected).
Proof.
  eexists. split; [reflexivity|].
  split; [reflexivity|]. split; [reflexivity|].
  intros H. specialize (H _ eq_refl). discriminate H.
Qed.

(** C2, amended.  The wallet is in one of two states, Disconnected
    (accounts empty) and Connected (accounts non-empty).  A step of a
    reachable component changes the wallet only in two ways: a click on the
    button empties the accounts of a Connected wallet (and leaves a
    Disconnected one as it is), and the fulfilment of a pending
    [eth_requestAccounts] request replaces the accounts by the list
    returned.  A settled detection and a rejected request leave the wallet
    alone, and an event emitted by the provider leaves the whole component
    alone.  So the state changes only from Disconnected to Connected, when
    the request resolves with a non-empty list, and from Connected to
    Disconnected, on a click (or when a request that was still pending
    resolves with the empty list). *)
Theorem wallet_transitions (e : Event (list string)) (c c' : Comp) :
  reachable c -> step e c = Some c' ->
  match e with
  | Click =>
      hasProvider c = Some true
      /\ wallet c' = match status c with
                     | Connected => {| accounts := [] |}
                     | Disconnected => wallet c
                     end
  | Fulfilled i addrs =>
      nth_error (pending c) i = Some connectTask
      /\ wallet c' = {| accounts := addrs |}
  | Detected _ _ | Rejected _ _ => wallet c' = wallet c
  | Emit _ _ => c' = c
  end
  /\ (status c' = status c
      \/ (status c = Disconnected /\ status c' = Connected
          /\ exists i addrs, e = Fulfilled i addrs /\ addrs <> [])
      \/ (status c = Connected /\ status c' = Disconnected
          /\ (e = Click \/ exists i, e = Fulfilled i [])))
  /\ (status c = Disconnected <-> accounts (wallet c) = [])
  /\ (status c = Connected <-> accounts (wallet c) <> []).
Proof.
  intros Hc Hstep. pose proof (step_wallet e Hc Hstep) as H.
  split; [exact H|].
  split; [|split; [apply status_disconnected | apply status_connected]].
  destruct e as [|i p|i v|i reason|name payload].
  - destruct H as [_ Hw]. destruct (status c) eqn:Es.
    + left. rewrite (status_wallet _ _ Hw). exact Es.
    + right; right. repeat split; [|now left].
      unfold status. now rewrite Hw.
  - left. now apply status_wallet.
  - destruct H as [_ Hw]. destruct (status c) eqn:Es.
    + destruct v as [|a v].
      * left. unfold status. now rewrite Hw.
      * right; left. repeat split.
        -- unfold status. now rewrite Hw.
        -- exists i, (a :: v). split; [reflexivity | discriminate].
    + destruct v as [|a v].
      * (* a request still pending that resolves with the empty list *)
        right; right. repeat split; [|right; now exists i].
        unfold status. now rewrite Hw.
      * left. unfold status. now rewrite Hw.
  - left. now apply status_wallet.
  - left. now rewrite H.
Qed.

Lemma wallet_transitions_witness :
  reachable {| hasProvider := Some true; wallet := initialState;
               pending := [connectTask]; listeners := [];
               calls := [detectCall; connectCall]; unhandled := [] |}
  /\ step (Fulfilled 0 ["0xabc"])
          {| hasProvider := Some true; wallet := initialState;
             pending := [connectTask]; listeners := [];
             calls := [detectCall; connectCall]; unhandled := [] |}
     = Some {| hasProvider := Some true;
               wallet := {| accounts := ["0xabc"] |};
               pending := []; listeners := [];
               calls := [detectCall; connectCall]; unhandled := [] |}
  /\ wallet {| hasProvider := Some true;
               wallet := {| accounts := ["0xabc"] |};
               pending := @nil (Task Wallet (list string));
               listeners := []; calls := [detectCall; connectCall];
               unhandled := [] |}
     = {| accounts := ["0xabc"] |}.
Proof.
  assert (H : reachable
                {| hasProvider := Some true; wallet := initialState;
                   pending := [connectTask]; listeners := [];
                   calls := [detectCall; connectCall]; unhandled := [] |}).
  { apply (@run_reachable
             [Detected 0 (Some {| isMetaMask := true |}); Click] mount).
    - exact reach_mount.
    - reflexivity. }
  split; [exact H|]. split; [reflexivity|].
  exact (proj2 (proj1 (@wallet_transitions (Fulfilled 0 ["0xabc"]) _ _ H
                         eq_refl))).
Defined.

Lemma no_detect_among_connects (l : list (Task Wallet (list string))) :
  Forall (eq connectTask) l -> existsb (@isDetect _ _) l = false.
Proof.
  induction 1 as [|t l <- _ IH]; simpl; [reflexivity | exact IH].
Qed.

(** C10.  Before the effect has run, and in every reachable state in which
    the detection is still pending, [hasProvider] is [null]; the view then
    reads "Injected Provider DOES NOT Exist" and has no button, and it is
    the very view rendered when [hasProvider] is [false]. *)
Theorem undetermined_shown_as_absent (c : Comp) :
  c = initial
  \/ (reachable c /\ existsb (@isDetect _ _) (pending c) = true) ->
  hasProvider c = None
  /\ providerLine (view c) = "Injected Provider DOES NOT Exist"
  /\ hasTag "button" (view c) = false
  /\ view c = render (Some false) (wallet c).
Proof.
  intros H.
  assert (Hh : hasProvider c = None).
  { destruct H as [->|[Hc Hd]]; [reflexivity|].
    apply reachable_Inv in Hc. destruct Hc as [_ Hp].
    destruct Hp as [Hh Hpe Hw Hc Hu|Hh Hpe Hw Hc Hu|Hh Hpe Hc].
    - exact Hh.
    - rewrite Hpe in Hd. discriminate Hd.
    - rewrite (no_detect_among_connects Hpe) in Hd. discriminate Hd. }
  split; [exact Hh|]. unfold view. rewrite Hh.
  repeat split.
  unfold render; simpl. destruct (accounts (wallet c)); reflexivity.
Qed.

Lemma undetermined_shown_as_absent_witness :
  (mount = initial
   \/ (reachable mount /\ existsb (@isDetect _ _) (pending mount) = true))
  /\ providerLine (view mount) = "Injected Provider DOES NOT Exist"
  /\ view mount = render (Some false) (wallet mount).
Proof.
  assert (H : mount = initial
              \/ (reachable mount
                  /\ existsb (@isDetect _ _) (pending mount) = true)).
  { right. split; [exact reach_mount | reflexivity]. }
  split; [exact H|].
  pose proof (undetermined_shown_as_absent H) as [_ [Hline [_ Hview]]].
  split; assumption.
Defined.

End AppFacts.

(* ===================================================================== *)
(** ** Properties of the [chainChanged] callback of README.md *)
(* ===================================================================== *)

Section ReadmeFacts.

Import Readme.

(** C8.  Once [refreshChain] is subscribed to [chainChanged] (after the
    [accountsChanged] callback, as the listing does it), a [chainChanged]
    event with a new chain id runs [refreshChain] and nothing else.  In
    every state of the component, Connected ones included, this sets the
    [chainId] field to the new chain id and leaves accounts and balance as
    they were; no call leaves the component, so the balance is not fetched
    again. *)
Theorem chainChanged_patches_chainId
        (onClick : Comp -> option (Prog unit)) (c : Comp)
        (refreshAccounts : Value -> Prog unit) (newChainId : Value) :
  listeners c = [("accountsChanged", refreshAccounts);
                 ("chainChanged", refreshChain)] ->
  let c' := withWallet {| accounts := accounts (wallet c);
                          balance := balance (wallet c);
                          chainId := newChainId |} c in
  stepWith onClick (Emit "chainChanged" newChainId) c = Some c'
  /\ advance (refreshChain newChainId) c = c'
  /\ chainId (wallet c') = newChainId
  /\ accounts (wallet c') = accounts (wallet c)
  /\ balance (wallet c') = balance (wallet c)
  /\ calls c' = calls c
  /\ pending c' = pending c.
Proof.
  intros Hl c'. subst c'. repeat split.
  unfold stepWith, emit. rewrite Hl. reflexivity.
Qed.

Lemma chainChanged_patches_chainId_witness :
  listeners onMainnet = [("accountsChanged", fun _ => Ret tt);
                         ("chainChanged", refreshChain)]
  /\ stepWith (fun _ => None) (Emit "chainChanged" (VStr "0x89")) onMainnet
     = Some (withWallet {| accounts := ["0xabc"]; balance := "1.00";
                           chainId := VStr "0x89" |} onMainnet).
Proof.
  split; [reflexivity|].
  exact (proj1 (@chainChanged_patches_chainId
                  (fun _ => None) onMainnet (fun _ => Ret tt)
                  (VStr "0x89") eq_refl)).
Defined.

End ReadmeFacts.

(* ===================================================================== *)
(** ** Properties of the chain id formatter *)
(* ===================================================================== *)

Section UtilsFacts.

Import Utils.

Lemma hexDigit_hexChar (upper : bool) (d : N) :
  (d < 16)%N -> hexDigit (hexChar upper d) = Some d.
Proof.
  intros Hd. rewrite <- (N2Nat.id d).
  assert (Hn : (N.to_nat d < 16)%nat) by lia.
  remember (N.to_nat d) as n eqn:En. clear En Hd d.
  do 16 (destruct n as [|n]; [destruct upper; reflexivity|]). lia.
Qed.

(** Only the 22 digit characters have a value. *)
Lemma hexDigit_inv (c : ascii) (d : N) :
  hexDigit c = Some d -> (d < 16)%N /\ exists upper, c = hexChar upper d.
Proof.
  destruct c as [[] [] [] [] [] [] [] []]; intros H;
    vm_compute in H; try discriminate H;
    injection H as <-; (split; [reflexivity|]);
    first [exists false; reflexivity | exists true; reflexivity].
Qed.

Lemma parseHex_hexChars (ds : list (bool * N)) :
  Forall (fun d => (snd d < 16)%N) ds ->
  forall acc,
    parseHex (string_of_list_ascii
                (map (fun d => hexChar (fst d) (snd d)) ds)) acc
    = Some (fold_left (fun a d => (16 * a + d)%N) (map snd ds) acc).
Proof.
  induction 1 as [|d ds Hd _ IH]; intros acc; simpl; [reflexivity|].
  rewrite (hexDigit_hexChar (fst d) Hd). apply IH.
Qed.

Lemma parseHex_inv (s : string) :
  forall acc n,
    parseHex s acc = Some n ->
    exists ds : list (bool * N),
      Forall (fun d => (snd d < 16)%N) ds
      /\ s = string_of_list_ascii
               (map (fun d => hexChar (fst d) (snd d)) ds)
      /\ n = fold_left (fun a d => (16 * a + d)%N) (map snd ds) acc.
Proof.
  induction s as [|c s IH]; intros acc n H; simpl in H.
  - injection H as <-. exists []. repeat split. constructor.
  - destruct (hexDigit c) as [d|] eqn:Hc; [|discriminate].
    destruct (hexDigit_inv _ Hc) as [Hd [upper ->]].
    destruct (IH _ _ H) as (ds & Hds & -> & ->).
    exists ((upper, d) :: ds). repeat split.
    constructor; assumption.
Qed.

(** The parser is reached only behind the prefix [0x] and with a first
    digit. *)
Lemma formatChainAsNum_inv (s : string) (n : N) :
  formatChainAsNum s = Some n ->
  exists c rest,
    s = String "0" (String "x" (String c rest))
    /\ parseHex (String c rest) 0 = Some n.
Proof.
  intros H. destruct s as [|a0 s]; [discriminate H|].
  destruct a0 as [[] [] [] [] [] [] [] []]; simpl in H;
    try discriminate H.
  destruct s as [|a1 s]; [discriminate H|].
  destruct a1 as [[] [] [] [] [] [] [] []]; simpl in H;
    try discriminate H.
  destruct s as [|c rest]; [discriminate H|].
  exists c, rest. split; [reflexivity | exact H].
Qed.

(** C9.  [formatChainAsNum] reads a [0x]-prefixed string of hexadecimal
    digits, written in either case, as the integer the digits denote in
    base 16, and it returns a number for such strings only: a result [n]
    for [s] means that [s] is such a string and [n] its value, and no
    result means that [s] is not such a string.  So
    [formatChainAsNum("0x1")] is 1 and [formatChainAsNum("0x89")] is
    137. *)
Theorem formatChainAsNum_base16 (ds : list (bool * N)) (s : string) :
  hexDigits ds ->
  formatChainAsNum (hexString ds) = Some (base16 (map snd ds))
  /\ match formatChainAsNum s with
     | Some n =>
         exists ds', hexDigits ds' /\ s = hexString ds'
                     /\ n = base16 (map snd ds')
     | None => forall ds', hexDigits ds' -> s <> hexString ds'
     end
  /\ formatChainAsNum "0x1" = Some 1%N
  /\ formatChainAsNum "0x89" = Some 137%N.
Proof.
  assert (Hfwd : forall ds', hexDigits ds' ->
                   formatChainAsNum (hexString ds')
                   = Some (base16 (map snd ds'))).
  { intros [|d ds'] [Hne Hds]; [contradiction|].
    unfold hexString, base16.
    change (formatChainAsNum
              ("0x" ++ string_of_list_ascii
                         (map (fun d => hexChar (fst d) (snd d))
                              (d :: ds'))))
      with (parseHex (string_of_list_ascii
                        (map (fun d => hexChar (fst d) (snd d))
                             (d :: ds'))) 0).
    now apply parseHex_hexChars. }
  intros Hds. split; [exact (Hfwd ds Hds)|].
  split; [|split; reflexivity].
  destruct (formatChainAsNum s) as [n|] eqn:Hs.
  - destruct (formatChainAsNum_inv _ Hs) as (c & rest & -> & Hp).
    destruct (parseHex_inv _ _ Hp) as (ds' & Hall & Hstr & ->).
    exists ds'. split; [split; [|exact Hall]|split].
    + intros ->. discriminate Hstr.
    + unfold hexString. rewrite <- Hstr. reflexivity.
    + reflexivity.
  - intros ds' Hds' ->. rewrite (Hfwd ds' Hds') in Hs. discriminate Hs.
Qed.

Lemma formatChainAsNum_base16_witness :
  hexDigits [(true, 10); (false, 11)]%N
  /\ hexString [(true, 10); (false, 11)]%N = "0xAb"
  /\ formatChainAsNum "0xAb" = Some 171%N
  /\ (forall ds', hexDigits ds' -> "0x" <> hexString ds').
Proof.
  assert (Hds : hexDigits [(true, 10); (false, 11)]%N).
  { split; [discriminate | repeat constructor]. }
  split; [exact Hds|]. split; [reflexivity|].
  pose proof (@formatChainAsNum_base16
                [(true, 10); (false, 11)]%N "0x" Hds) as [Hv [Hnone _]].
  split; [exact Hv | exact Hnone].
Defined.

End UtilsFacts.

(* ===================================================================== *)
(** ** Behaviour of src/App.tsx over whole runs *)
(* ===================================================================== *)

Section AppRunFacts.

Import App AppRuns.

Lemma wallet_empty (c : Comp) :
  accounts (wallet c) = [] -> wallet c = initialState.
Proof.
  destruct (wallet c) as [l]; simpl. now intros ->.
Qed.

Lemma nth_error_middle (A : Type) (l l' : list A) (x : A) :
  nth_error (l ++ x :: l') (List.length l) = Some x.
Proof.
  induction l as [|y l IH]; simpl; [reflexivity | exact IH].
Qed.

Lemma remove_nth_middle (A : Type) (l l' : list A) (x : A) :
  remove_nth (List.length l) (l ++ x :: l') = (l ++ l')%list.
Proof.
  induction l as [|y l IH]; simpl; [reflexivity|].
  now rewrite IH.
Qed.

Lemma remove_nth_length_le (A : Type) (i : nat) (l : list A) :
  List.length (remove_nth i l) <= List.length l.
Proof.
  revert i. induction l as [|x l IH]; intros i; simpl; [lia|].
  destruct i; simpl; [lia | specialize (IH i); lia].
Qed.

(** Every step of a reachable component, read backwards: which event it
    was, in which state it could happen, and what it produced. *)
Lemma step_cases (e : Event (list string)) (c c' : Comp) :
  reachable c -> step e c = Some c' ->
  match e with
  | Click =>
      hasProvider c = Some true
      /\ c' = match accounts (wallet c) with
              | [] => suspend connectTask connectCall c
              | _ :: _ => withWallet {| accounts := [] |} c
              end
  | Detected i p =>
      i = 0 /\ c = mount /\ c' = detected p
  | Fulfilled i addrs =>
      hasProvider c = Some true
      /\ nth_error (pending c) i = Some connectTask
      /\ c' = withWallet {| accounts := addrs |} (resume i c)
  | Rejected i reason =>
      hasProvider c = Some true
      /\ nth_error (pending c) i = Some connectTask
      /\ c' = reject reason (resume i c)
  | Emit _ _ => c' = c
  end.
Proof.
  intros Hc Hstep. apply reachable_Inv in Hc. destruct Hc as [Hl Hp].
  unfold step, stepAt, stepWith in Hstep.
  destruct e as [|i p|i v|i reason|name payload].
  - destruct (truthy (hasProvider c)) eqn:E.
    + apply truthy_true in E. split; [exact E|].
      rewrite onClick_present in Hstep by assumption.
      injection Hstep as <-.
      destruct (accounts (wallet c)) eqn:Ha.
      * now rewrite handleConnect_disconnected.
      * now rewrite handleConnect_connected by congruence.
    + rewrite onClick_absent in Hstep; [discriminate|].
      intros H. apply truthy_true in H. congruence.
  - destruct (nth_error (pending c) i) as [t|] eqn:Ht; [|discriminate].
    destruct (pending_task _ Hp Ht)
      as [(-> & -> & Hh & Hpe & Hw & Hc & Hu)|(-> & _)]; [|discriminate].
    injection Hstep as <-. split; [reflexivity|].
    destruct c; simpl in *; subst. split; reflexivity.
  - destruct (nth_error (pending c) i) as [t|] eqn:Ht; [|discriminate].
    destruct (pending_task _ Hp Ht) as [(-> & _)|(-> & Hh & _)];
      [discriminate|].
    injection Hstep as <-. repeat split. exact Hh.
  - destruct (nth_error (pending c) i) as [t|] eqn:Ht; [|discriminate].
    destruct (pending_task _ Hp Ht) as [(-> & _)|(-> & Hh & _)];
      [discriminate|].
    injection Hstep as <-. repeat split. exact Hh.
  - rewrite emit_no_listener in Hstep by assumption.
    now injection Hstep as <-.
Qed.

(** The same for a step that meets the render of [shown]: a click runs the
    handler of that render. *)
Lemma step_casesAt (shown : Comp) (e : Event (list string)) (c c' : Comp) :
  reachableAt shown c -> stepAt shown e c = Some c' ->
  match e with
  | Click =>
      hasProvider shown = Some true /\ hasProvider c = Some true
      /\ c' = match accounts (wallet shown) with
              | [] => suspend connectTask connectCall c
              | _ :: _ => withWallet {| accounts := [] |} c
              end
  | Detected i p =>
      i = 0 /\ c = mount /\ c' = detected p
  | Fulfilled i addrs =>
      hasProvider c = Some true
      /\ nth_error (pending c) i = Some connectTask
      /\ c' = withWallet {| accounts := addrs |} (resume i c)
  | Rejected i reason =>
      hasProvider c = Some true
      /\ nth_error (pending c) i = Some connectTask
      /\ c' = reject reason (resume i c)
  | Emit _ _ => c' = c
  end.
Proof.
  intros Hat Hstep.
  destruct e as [|i p|i v|i reason|name payload].
  - destruct (reachableAt_Inv Hat) as [_ Hlag].
    unfold stepAt, stepWith in Hstep.
    destruct (truthy (hasProvider shown)) eqn:E.
    + apply truthy_true in E. split; [exact E|]. split; [auto|].
      rewrite onClick_present in Hstep by assumption.
      injection Hstep as <-. apply handleConnect_advance.
    + rewrite onClick_absent in Hstep; [discriminate|].
      intros H. apply truthy_true in H. congruence.
  - apply (@step_cases (Detected i p) c c'); [now exists shown | exact Hstep].
  - apply (@step_cases (Fulfilled i v) c c');
      [now exists shown | exact Hstep].
  - apply (@step_cases (Rejected i reason) c c');
      [now exists shown | exact Hstep].
  - apply (@step_cases (Emit name payload) c c');
      [now exists shown | exact Hstep].
Qed.

Lemma click_at (shown c : Comp) :
  hasProvider shown = Some true ->
  stepAt shown Click c
  = Some match accounts (wallet shown) with
         | [] => suspend connectTask connectCall c
         | _ :: _ => withWallet {| accounts := [] |} c
         end.
Proof.
  intros Hh. unfold stepAt, stepWith.
  rewrite onClick_present by assumption.
  now rewrite handleConnect_advance.
Qed.

Lemma runAt_do (e : Event (list string)) (acts : list Act)
      (shown c : Comp) :
  runAt (Do e :: acts) shown c
  = match stepAt shown e c with
    | Some c' => runAt acts shown c'
    | None => None
    end.
Proof.
  reflexivity.
Qed.

Lemma runAt_render (acts : list Act) (shown c : Comp) :
  runAt (Rerender :: acts) shown c = runAt acts c c.
Proof.
  reflexivity.
Qed.

Lemma runAt_reachableAt (acts : list Act) :
  forall shown c shown' c',
    reachableAt shown c -> runAt acts shown c = Some (shown', c') ->
    reachableAt shown' c'.
Proof.
  induction acts as [|[e|] acts IH]; intros shown c shown' c' Hat Hrun.
  - injection Hrun as <- <-. exact Hat.
  - rewrite runAt_do in Hrun.
    destruct (stepAt shown e c) as [c1|] eqn:E; [|discriminate].
    apply (IH shown c1); [eapply at_step; eassumption | exact Hrun].
  - apply (IH c c); [eapply at_render; exact Hat | exact Hrun].
Qed.

(** The three steps the runs below are made of. *)
Lemma click_connect (c : Comp) :
  hasProvider c = Some true -> accounts (wallet c) = [] ->
  step Click c = Some (suspend connectTask connectCall c).
Proof.
  intros Hh Ha. unfold step, stepAt, stepWith.
  rewrite onClick_present by assumption.
  now rewrite handleConnect_disconnected.
Qed.

Lemma click_disconnect (c : Comp) :
  hasProvider c = Some true -> accounts (wallet c) <> [] ->
  step Click c = Some (withWallet {| accounts := [] |} c).
Proof.
  intros Hh Ha. unfold step, stepAt, stepWith.
  rewrite onClick_present by assumption.
  now rewrite handleConnect_connected.
Qed.

Lemma fulfil_connect (c : Comp) (i : nat) (addrs : list string) :
  nth_error (pending c) i = Some connectTask ->
  step (Fulfilled i addrs) c
  = Some (withWallet {| accounts := addrs |} (resume i c)).
Proof.
  intros Ht. unfold step, stepAt, stepWith. rewrite Ht. reflexivity.
Qed.

(** X1.  The detection settles once.  As soon as [hasProvider] is no longer
    [null], no step changes it any more, and no detection result is accepted
    a second time: the effect has an empty dependency list and
    [getProvider] is the only caller of [setHasProvider]. *)
Theorem detection_settles_once (e : Event (list string)) (c c' : Comp) :
  reachable c -> step e c = Some c' -> hasProvider c <> None ->
  hasProvider c' = hasProvider c
  /\ match e with Detected _ _ => False | _ => True end.
Proof.
  intros Hc Hstep Hh. pose proof (step_cases e Hc Hstep) as H.
  destruct e as [|i p|i v|i reason|name payload].
  - destruct H as [_ ->]. split; [|exact I].
    destruct (accounts (wallet c)); reflexivity.
  - destruct H as (_ & -> & _). exfalso. apply Hh. reflexivity.
  - destruct H as (_ & _ & ->). split; [reflexivity | exact I].
  - destruct H as (_ & _ & ->). split; [reflexivity | exact I].
  - subst c'. split; [reflexivity | exact I].
Qed.

Lemma detection_settles_once_witness :
  reachable (detected (Some {| isMetaMask := true |}))
  /\ hasProvider (detected (Some {| isMetaMask := true |})) <> None
  /\ step Click (detected (Some {| isMetaMask := true |}))
     = Some (suspend connectTask connectCall
                     (detected (Some {| isMetaMask := true |})))
  /\ hasProvider (suspend connectTask connectCall
                          (detected (Some {| isMetaMask := true |})))
     = Some true.
Proof.
  assert (H : reachable (detected (Some {| isMetaMask := true |}))).
  { apply (@reach_step (Detected 0 (Some {| isMetaMask := true |})) mount).
    - exact reach_mount.
    - reflexivity. }
  split; [exact H|]. split; [discriminate|]. split; [reflexivity|].
  exact (proj1 (@detection_settles_once Click _ _ H eq_refl
                  ltac:(discriminate))).
Defined.

(** X2.  Without a provider the component is inert.  While [hasProvider]
    is [null] or [false], the only step that changes anything is the
    settlement of the detection; a click finds no button, no request is
    pending, and the wallet is and stays the initial one, with the detection
    as the only call ever made. *)
Theorem inert_without_provider (e : Event (list string)) (c c' : Comp) :
  reachable c -> hasProvider c <> Some true -> step e c = Some c' ->
  ((exists p, e = Detected 0 p /\ c = mount /\ c' = detected p) \/ c' = c)
  /\ wallet c' = initialState
  /\ calls c' = [detectCall]
  /\ pending c' = match hasProvider c' with
                  | Some _ => []
                  | None => [detectTask]
                  end.
Proof.
  intros Hc Hh Hstep. pose proof (step_cases e Hc Hstep) as H.
  assert (Hinit : wallet c = initialState /\ calls c = [detectCall]
                  /\ pending c = match hasProvider c with
                                 | Some _ => []
                                 | None => [detectTask]
                                 end).
  { apply reachable_Inv in Hc. destruct Hc as [_ Hp].
    destruct Hp as [H1 H2 H3 H4 _|H1 H2 H3 H4 _|H1 _ _];
      [| |contradiction]; rewrite H1; auto. }
  destruct e as [|i p|i v|i reason|name payload].
  - destruct H as [H _]. contradiction.
  - destruct H as (-> & -> & ->). split.
    + left. exists p. repeat split.
    + destruct p; repeat split.
  - destruct H as [H _]. contradiction.
  - destruct H as [H _]. contradiction.
  - subst c'. split; [now right | exact Hinit].
Qed.

Lemma inert_without_provider_witness :
  reachable (detected None)
  /\ hasProvider (detected None) <> Some true
  /\ step (Emit "accountsChanged" (VArr ["0xabc"])) (detected None)
     = Some (detected None)
  /\ wallet (detected None) = initialState.
Proof.
  assert (H : reachable (detected None)).
  { apply (@reach_step (Detected 0 None) mount).
    - exact reach_mount.
    - reflexivity. }
  split; [exact H|]. split; [discriminate|]. split; [reflexivity|].
  exact (proj1 (proj2 (@inert_without_provider
                         (Emit "accountsChanged" (VArr ["0xabc"])) _ _ H
                         ltac:(discriminate) eq_refl))).
Defined.

(** X3.  The component talks to the provider only when asked to connect.
    Whatever render is on screen, a step issues a call if and only if it is
    a click on a button rendered for an empty wallet, the one reading
    "Connect MetaMask", and the call is then one [eth_requestAccounts]
    request, also when the cells hold accounts by now.  A click on a button
    rendered for a non-empty wallet, a settled promise or a provider event
    makes no call and suspends nothing new. *)
Theorem requests_only_on_connect (shown : Comp) (e : Event (list string))
        (c c' : Comp) :
  reachableAt shown c -> stepAt shown e c = Some c' ->
  (e = Click /\ hasProvider shown = Some true
   /\ accounts (wallet shown) = []
   /\ calls c' = (calls c ++ [connectCall])%list
   /\ pending c' = (pending c ++ [connectTask])%list)
  \/ ((e <> Click \/ accounts (wallet shown) <> [])
      /\ calls c' = calls c
      /\ List.length (pending c') <= List.length (pending c)).
Proof.
  intros Hat Hstep. pose proof (step_casesAt e Hat Hstep) as H.
  pose proof (fun i => remove_nth_length_le i (pending c)) as Hlen.
  destruct e as [|i p|i v|i reason|name payload].
  - destruct H as (Hh & _ & ->). destruct (accounts (wallet shown)) eqn:Ha.
    + left. repeat split. exact Hh.
    + right. split; [right; discriminate|]. split; [reflexivity|].
      simpl. lia.
  - destruct H as (_ & -> & ->). right.
    split; [left; discriminate|]. split; [reflexivity | simpl; lia].
  - destruct H as (_ & _ & ->). right.
    split; [left; discriminate|]. split; [reflexivity | apply Hlen].
  - destruct H as (_ & _ & ->). right.
    split; [left; discriminate|]. split; [reflexivity | apply Hlen].
  - subst c'. right.
    split; [left; discriminate|]. split; [reflexivity | lia].
Qed.

Lemma requests_only_on_connect_witness :
  reachableAt
    (detected (Some {| isMetaMask := true |}))
    (withWallet {| accounts := ["0xabc"] |}
       (afterRequests 1 (detected (Some {| isMetaMask := true |}))))
  /\ stepAt (detected (Some {| isMetaMask := true |})) Click
       (withWallet {| accounts := ["0xabc"] |}
          (afterRequests 1 (detected (Some {| isMetaMask := true |}))))
     = Some (suspend connectTask connectCall
               (withWallet {| accounts := ["0xabc"] |}
                  (afterRequests 1
                     (detected (Some {| isMetaMask := true |})))))
  /\ calls (suspend connectTask connectCall
              (withWallet {| accounts := ["0xabc"] |}
                 (afterRequests 1
                    (detected (Some {| isMetaMask := true |})))))
     = [detectCall; connectCall; connectCall].
Proof.
  assert (H : reachableAt
                (detected (Some {| isMetaMask := true |}))
                (withWallet {| accounts := ["0xabc"] |}
                   (afterRequests 1
                      (detected (Some {| isMetaMask := true |}))))).
  { apply (@runAt_reachableAt
             [Do (Detected 0 (Some {| isMetaMask := true |})); Rerender;
              Do Click; Do (Fulfilled 0 ["0xabc"])]
             initial mount).
    - exact at_mount.
    - reflexivity. }
  split; [exact H|]. split; [reflexivity|].
  destruct (@requests_only_on_connect _ Click _ _ H eq_refl)
    as [(_ & _ & _ & Hcalls & _)|([Hne|Hne] & _)].
  - exact Hcalls.
  - exfalso. apply Hne. reflexivity.
  - exfalso. apply Hne. reflexivity.
Defined.

Lemma run_cons (e : Event (list string)) (es : list (Event (list string)))
      (c : Comp) :
  run (e :: es) c = match step e c with
                    | Some c' => run es c'
                    | None => None
                    end.
Proof.
  reflexivity.
Qed.

(** Settling the function suspended at the end of [l], in a component whose
    button is there and whose suspended functions are all connect
    requests. *)
Lemma fulfil_middle (c : Comp) (l l' : list (Task Wallet (list string)))
      (addrs : list string) :
  pending c = (l ++ connectTask :: l')%list ->
  step (Fulfilled (List.length l) addrs) c
  = Some {| hasProvider := hasProvider c;
            wallet := {| accounts := addrs |};
            pending := (l ++ l')%list; listeners := listeners c;
            calls := calls c; unhandled := unhandled c |}.
Proof.
  intros Hp. rewrite fulfil_connect by (rewrite Hp; apply nth_error_middle).
  unfold withWallet, resume; simpl.
  now rewrite Hp, remove_nth_middle.
Qed.

(** X4.  The three pages.  In every reachable state the view is one of
    three trees: the provider line alone, reading "DOES NOT", while no
    provider has been found; the line reading "DOES" with the button
    "Connect MetaMask" while Disconnected; and that line with the button
    "Disconnect MetaMask" and the line of the first account, and of that
    account only, while Connected.  An account is never shown without the
    button. *)
Theorem view_pages (c : Comp) :
  reachable c ->
  view c = match hasProvider c, accounts (wallet c) with
           | Some true, [] => pageConnect
           | Some true, account :: _ => pageConnected account
           | _, _ => pageNoProvider
           end.
Proof.
  intros Hc. apply reachable_Inv in Hc. destruct Hc as [_ Hp].
  unfold view.
  destruct Hp as [Hh _ Hw _ _|Hh _ Hw _ _|Hh _ _]; rewrite Hh.
  - rewrite Hw. reflexivity.
  - rewrite Hw. reflexivity.
  - destruct (wallet c) as [[|account others]]; reflexivity.
Qed.

Lemma view_pages_witness :
  reachable (withWallet {| accounts := ["0xabc"; "0xdef"] |}
               (afterRequests 1 (detected (Some {| isMetaMask := true |}))))
  /\ view (withWallet {| accounts := ["0xabc"; "0xdef"] |}
             (afterRequests 1 (detected (Some {| isMetaMask := true |}))))
     = pageConnected "0xabc".
Proof.
  assert (H : reachable
                (withWallet {| accounts := ["0xabc"; "0xdef"] |}
                   (afterRequests 1
                      (detected (Some {| isMetaMask := true |}))))).
  { apply (@run_reachable
             [Detected 0 (Some {| isMetaMask := true |}); Click;
              Fulfilled 0 ["0xabc"; "0xdef"]] mount).
    - exact reach_mount.
    - reflexivity. }
  split; [exact H|].
  exact (view_pages H).
Defined.

(** X5.  Connecting and then disconnecting is a round trip, once React has
    rendered the answer.  From a Disconnected state with its page on
    screen, a click, the answer [a :: rest], a render and a second click
    lead back to the component the run started from, but for the one
    request recorded: the disconnect undoes the connect locally and tells
    the provider nothing.  A second click that arrives before that render
    still reaches the handler of the Disconnected page: it issues a second
    request and the wallet stays Connected. *)
Theorem connect_disconnect_round_trip (c : Comp) (a : string)
        (rest : list string) :
  hasProvider c = Some true -> accounts (wallet c) = [] ->
  runAt [Do Click; Do (Fulfilled (List.length (pending c)) (a :: rest));
         Rerender; Do Click] c c
  = Some (withWallet {| accounts := a :: rest |} (afterRequests 1 c),
          afterRequests 1 c)
  /\ runAt [Do Click; Do (Fulfilled (List.length (pending c)) (a :: rest));
            Do Click] c c
     = Some (c, suspend connectTask connectCall
                  (withWallet {| accounts := a :: rest |}
                     (afterRequests 1 c))).
Proof.
  intros Hh Ha.
  assert (Hfirst : stepAt c Click c
                   = Some (suspend connectTask connectCall c)).
  { rewrite click_at by assumption. now rewrite Ha. }
  assert (Hanswer : stepAt c (Fulfilled (List.length (pending c))
                                (a :: rest))
                      (suspend connectTask connectCall c)
                    = Some (withWallet {| accounts := a :: rest |}
                              (afterRequests 1 c))).
  { change (stepAt c) with (stepAt (suspend connectTask connectCall c)).
    fold (step (Fulfilled (List.length (pending c)) (a :: rest))
               (suspend connectTask connectCall c)).
    rewrite (@fulfil_middle _ (pending c) [] (a :: rest)) by reflexivity.
    unfold afterRequests, withWallet; simpl. now rewrite app_nil_r. }
  split.
  - rewrite runAt_do, Hfirst, runAt_do, Hanswer, runAt_render, runAt_do.
    rewrite click_at by exact Hh.
    unfold afterRequests, withWallet; simpl.
    now rewrite (wallet_empty _ Ha).
  - rewrite runAt_do, Hfirst, runAt_do, Hanswer, runAt_do.
    rewrite click_at by exact Hh. now rewrite Ha.
Qed.

Lemma connect_disconnect_round_trip_witness :
  hasProvider (detected (Some {| isMetaMask := true |})) = Some true
  /\ accounts (wallet (detected (Some {| isMetaMask := true |}))) = []
  /\ runAt [Do Click; Do (Fulfilled 0 ["0xabc"]); Rerender; Do Click]
           (detected (Some {| isMetaMask := true |}))
           (detected (Some {| isMetaMask := true |}))
     = Some (withWallet {| accounts := ["0xabc"] |}
               (afterRequests 1
                  (detected (Some {| isMetaMask := true |}))),
             afterRequests 1 (detected (Some {| isMetaMask := true |}))).
Proof.
  split; [reflexivity|]. split; [reflexivity|].
  exact (proj1 (@connect_disconnect_round_trip
                  (detected (Some {| isMetaMask := true |})) "0xabc" []
                  eq_refl eq_refl)).
Defined.

(** X6.  Nothing guards a request already in flight, and the answer that
    arrives last wins.  In a Disconnected state two clicks issue two
    [eth_requestAccounts] requests.  If the answers arrive in the order of
    the clicks the wallet ends with the second answer; if the answer to the
    second click arrives first, the wallet ends with the answer to the
    first click. *)
Theorem last_answer_wins (c : Comp) (first second : list string) :
  hasProvider c = Some true -> accounts (wallet c) = [] ->
  run [Click; Click;
       Fulfilled (List.length (pending c)) first;
       Fulfilled (List.length (pending c)) second] c
  = Some (withWallet {| accounts := second |} (afterRequests 2 c))
  /\ run [Click; Click;
          Fulfilled (S (List.length (pending c))) second;
          Fulfilled (List.length (pending c)) first] c
     = Some (withWallet {| accounts := first |} (afterRequests 2 c)).
Proof.
  intros Hh Ha.
  assert (Hlast : S (List.length (pending c))
                  = List.length (pending c ++ [connectTask])).
  { rewrite length_app. simpl. lia. }
  split.
  - rewrite run_cons, (click_connect _ Hh Ha).
    rewrite run_cons, click_connect by assumption.
    rewrite run_cons,
      (@fulfil_middle _ (pending c) [connectTask] first)
      by (simpl; now rewrite <- app_assoc).
    rewrite run_cons, (@fulfil_middle _ (pending c) [] second)
      by reflexivity.
    unfold run, afterRequests, withWallet; simpl.
    now rewrite app_nil_r, <- app_assoc.
  - rewrite run_cons, (click_connect _ Hh Ha).
    rewrite run_cons, click_connect by assumption.
    rewrite run_cons, Hlast,
      (@fulfil_middle _ (pending c ++ [connectTask]) [] second)
      by reflexivity.
    rewrite run_cons, (@fulfil_middle _ (pending c) [] first)
      by (simpl; now rewrite app_nil_r).
    unfold run, afterRequests, withWallet; simpl.
    now rewrite app_nil_r, <- app_assoc.
Qed.

Lemma last_answer_wins_witness :
  hasProvider (detected (Some {| isMetaMask := true |})) = Some true
  /\ accounts (wallet (detected (Some {| isMetaMask := true |}))) = []
  /\ run [Click; Click; Fulfilled 1 ["0x222"]; Fulfilled 0 ["0x111"]]
         (detected (Some {| isMetaMask := true |}))
     = Some (withWallet {| accounts := ["0x111"] |}
               (afterRequests 2
                  (detected (Some {| isMetaMask := true |})))).
Proof.
  split; [reflexivity|]. split; [reflexivity|].
  exact (proj2 (@last_answer_wins
                  (detected (Some {| isMetaMask := true |}))
                  ["0x111"] ["0x222"] eq_refl eq_refl)).
Defined.

(** X7.  A disconnect does not cancel a request in flight.  With a
    connect request still pending, a click on a button rendered for a
    non-empty wallet, the one reading "Disconnect MetaMask", empties the
    accounts; when the pending request is then answered with [a :: rest],
    the wallet is Connected again, with that list, without any further
    click. *)
Theorem late_answer_reconnects (shown c : Comp) (i : nat) (a : string)
        (rest : list string) :
  hasProvider shown = Some true -> accounts (wallet shown) <> [] ->
  nth_error (pending c) i = Some connectTask ->
  stepAt shown Click c = Some (withWallet {| accounts := [] |} c)
  /\ status (withWallet {| accounts := [] |} c) = Disconnected
  /\ runAt [Do Click; Do (Fulfilled i (a :: rest))] shown c
     = Some (shown, withWallet {| accounts := a :: rest |} (resume i c))
  /\ status (withWallet {| accounts := a :: rest |} (resume i c))
     = Connected.
Proof.
  intros Hh Ha Ht.
  assert (Hclick : stepAt shown Click c
                   = Some (withWallet {| accounts := [] |} c)).
  { rewrite click_at by assumption.
    destruct (accounts (wallet shown)); [contradiction | reflexivity]. }
  repeat split; [exact Hclick|].
  rewrite runAt_do, Hclick, runAt_do.
  unfold stepAt, stepWith; simpl. rewrite Ht. reflexivity.
Qed.

Lemma late_answer_reconnects_witness :
  reachableAt
    {| hasProvider := Some true; wallet := {| accounts := ["0x111"] |};
       pending := [connectTask]; listeners := [];
       calls := [detectCall; connectCall; connectCall];
       unhandled := [] |}
    {| hasProvider := Some true; wallet := {| accounts := ["0x111"] |};
       pending := [connectTask]; listeners := [];
       calls := [detectCall; connectCall; connectCall];
       unhandled := [] |}
  /\ runAt [Do Click; Do (Fulfilled 0 ["0x222"])]
           {| hasProvider := Some true;
              wallet := {| accounts := ["0x111"] |};
              pending := [connectTask]; listeners := [];
              calls := [detectCall; connectCall; connectCall];
              unhandled := [] |}
           {| hasProvider := Some true;
              wallet := {| accounts := ["0x111"] |};
              pending := [connectTask]; listeners := [];
              calls := [detectCall; connectCall; connectCall];
              unhandled := [] |}
     = Some ({| hasProvider := Some true;
                wallet := {| accounts := ["0x111"] |};
                pending := [connectTask]; listeners := [];
                calls := [detectCall; connectCall; connectCall];
                unhandled := [] |},
             {| hasProvider := Some true;
                wallet := {| accounts := ["0x222"] |};
                pending := []; listeners := [];
                calls := [detectCall; connectCall; connectCall];
                unhandled := [] |}).
Proof.
  split.
  - apply (@runAt_reachableAt
             [Do (Detected 0 (Some {| isMetaMask := true |})); Rerender;
              Do Click; Do Click; Do (Fulfilled 0 ["0x111"]); Rerender]
             initial mount).
    + exact at_mount.
    + reflexivity.
  - exact (proj1 (proj2 (proj2
      (@late_answer_reconnects
         {| hasProvider := Some true;
            wallet := {| accounts := ["0x111"] |};
            pending := [connectTask]; listeners := [];
            calls := [detectCall; connectCall; connectCall];
            unhandled := [] |}
         {| hasProvider := Some true;
            wallet := {| accounts := ["0x111"] |};
            pending := [connectTask]; listeners := [];
            calls := [detectCall; connectCall; connectCall];
            unhandled := [] |}
         0 "0x222" [] eq_refl ltac:(discriminate) eq_refl)))).
Defined.

(** X8.  An empty answer connects nothing.  When the request of a connect
    click resolves with the empty list, [updateWallet] stores it as it is:
    the component is the one before the click, but for the request
    recorded; it is still Disconnected and the page still offers
    "Connect MetaMask" and shows no account. *)
Theorem empty_answer_stays_disconnected (c : Comp) :
  hasProvider c = Some true -> accounts (wallet c) = [] ->
  run [Click; Fulfilled (List.length (pending c)) []] c
  = Some (afterRequests 1 c)
  /\ status (afterRequests 1 c) = Disconnected
  /\ view (afterRequests 1 c) = pageConnect.
Proof.
  intros Hh Ha. split; [|split].
  - rewrite run_cons, (click_connect _ Hh Ha).
    rewrite run_cons, (@fulfil_middle _ (pending c) [] []) by reflexivity.
    unfold run, afterRequests; simpl.
    rewrite app_nil_r, (wallet_empty _ Ha). reflexivity.
  - unfold status; simpl. now rewrite Ha.
  - unfold view; simpl. rewrite Hh, (wallet_empty _ Ha). reflexivity.
Qed.

Lemma empty_answer_stays_disconnected_witness :
  hasProvider (detected (Some {| isMetaMask := true |})) = Some true
  /\ accounts (wallet (detected (Some {| isMetaMask := true |}))) = []
  /\ run [Click; Fulfilled 0 []]
         (detected (Some {| isMetaMask := true |}))
     = Some (afterRequests 1 (detected (Some {| isMetaMask := true |}))).
Proof.
  split; [reflexivity|]. split; [reflexivity|].
  exact (proj1 (@empty_answer_stays_disconnected
                  (detected (Some {| isMetaMask := true |}))
                  eq_refl eq_refl)).
Defined.

Lemma reject_middle (c : Comp) (l l' : list (Task Wallet (list string)))
      (reason : string) :
  pending c = (l ++ connectTask :: l')%list ->
  step (Rejected (List.length l) reason) c
  = Some {| hasProvider := hasProvider c; wallet := wallet c;
            pending := (l ++ l')%list; listeners := listeners c;
            calls := calls c;
            unhandled := (unhandled c ++ [reason])%list |}.
Proof.
  intros Hp. unfold step, stepAt, stepWith.
  rewrite Hp, nth_error_middle. unfold connectTask, reject, resume; simpl.
  now rewrite Hp, remove_nth_middle.
Qed.

(** X9.  A refusal does not spend the button.  After the request of a
    connect click has been rejected, the wallet is still Disconnected and
    the next click issues a fresh request; when that one is answered with
    [a :: rest] the wallet is Connected with that list, and the earlier
    rejection remains the only one recorded. *)
Theorem retry_after_rejection (c : Comp) (reason a : string)
        (rest : list string) :
  hasProvider c = Some true -> accounts (wallet c) = [] ->
  run [Click; Rejected (List.length (pending c)) reason;
       Click; Fulfilled (List.length (pending c)) (a :: rest)] c
  = Some (withWallet {| accounts := a :: rest |}
            (reject reason (afterRequests 2 c))).
Proof.
  intros Hh Ha.
  rewrite run_cons, (click_connect _ Hh Ha).
  rewrite run_cons, (@reject_middle _ (pending c) [] reason)
    by reflexivity.
  rewrite run_cons, click_connect by assumption.
  rewrite run_cons, (@fulfil_middle _ (pending c) [] (a :: rest))
    by (simpl; now rewrite app_nil_r).
  unfold run, afterRequests, withWallet, reject; simpl.
  now rewrite app_nil_r, <- app_assoc.
Qed.

Lemma retry_after_rejection_witness :
  hasProvider (detected (Some {| isMetaMask := true |})) = Some true
  /\ accounts (wallet (detected (Some {| isMetaMask := true |}))) = []
  /\ run [Click; Rejected 0 "User rejected the request.";
          Click; Fulfilled 0 ["0xabc"]]
         (detected (Some {| isMetaMask := true |}))
     = Some {| hasProvider := Some true;
               wallet := {| accounts := ["0xabc"] |};
               pending := []; listeners := [];
               calls := [detectCall; connectCall; connectCall];
               unhandled := ["User rejected the request."] |}.
Proof.
  split; [reflexivity|]. split; [reflexivity|].
  exact (@retry_after_rejection
           (detected (Some {| isMetaMask := true |}))
           "User rejected the request." "0xabc" [] eq_refl eq_refl).
Defined.

(** Where the accounts of the wallet can come from, along a run. *)
Lemma accounts_provenance_from (es : list (Event (list string))) :
  forall c c' : Comp,
    reachable c -> run es c = Some c' ->
    accounts (wallet c') = accounts (wallet c)
    \/ accounts (wallet c') = []
    \/ exists i, In (Fulfilled i (accounts (wallet c'))) es.
Proof.
  induction es as [|e es IH]; intros c c' Hc Hrun.
  - injection Hrun as <-. now left.
  - rewrite run_cons in Hrun.
    destruct (step e c) as [c1|] eqn:Hstep; [|discriminate].
    assert (Hc1 : reachable c1) by (eapply reach_step; eassumption).
    destruct (IH _ _ Hc1 Hrun) as [Hsame|[Hempty|[i Hin]]].
    + pose proof (step_wallet e Hc Hstep) as H.
      destruct e as [|j p|j v|j reason|name payload].
      * destruct H as [_ Hw]. rewrite Hsame, Hw.
        destruct (status c); [now left | right; now left].
      * left. now rewrite Hsame, H.
      * destruct H as [_ Hw]. right; right. exists j. left.
        rewrite Hsame, Hw. reflexivity.
      * left. now rewrite Hsame, H.
      * left. now rewrite Hsame, H.
    + right; now left.
    + right; right. exists i. now right.
Qed.

(** X10.  The wallet never holds accounts the provider did not give.
    After any run from the mount, the accounts of the wallet are either
    empty or exactly the list with which one of the requests of the run was
    fulfilled: a click, a rejection or a provider event never puts an
    address into the wallet. *)
Theorem accounts_come_from_an_answer (es : list (Event (list string)))
        (c : Comp) :
  run es mount = Some c ->
  accounts (wallet c) = []
  \/ exists i, In (Fulfilled i (accounts (wallet c))) es.
Proof.
  intros Hrun.
  destruct (accounts_provenance_from es reach_mount Hrun)
    as [H|[H|H]]; [left; exact H | left; exact H | right; exact H].
Qed.

Lemma accounts_come_from_an_answer_witness :
  run [Detected 0 (Some {| isMetaMask := true |}); Click;
       Emit "accountsChanged" (VArr ["0xdef"]); Fulfilled 0 ["0xabc"]]
      mount
  = Some (withWallet {| accounts := ["0xabc"] |}
            (afterRequests 1 (detected (Some {| isMetaMask := true |}))))
  /\ (accounts {| accounts := ["0xabc"] |} = []
      \/ exists i,
           In (Fulfilled i (accounts {| accounts := ["0xabc"] |}))
              [Detected 0 (Some {| isMetaMask := true |}); Click;
               Emit "accountsChanged" (VArr ["0xdef"]);
               Fulfilled 0 ["0xabc"]]).
Proof.
  split; [reflexivity|].
  exact (@accounts_come_from_an_answer
           [Detected 0 (Some {| isMetaMask := true |}); Click;
            Emit "accountsChanged" (VArr ["0xdef"]);
            Fulfilled 0 ["0xabc"]] _ eq_refl).
Defined.

End AppRunFacts.

(* ===================================================================== *)
(** ** The [accountsChanged] callback of README.md *)
(* ===================================================================== *)

Section ReadmeAccountsFacts.

Import Readme ReadmeAccounts.

(** X11.  Once [refreshAccounts] and [refreshChain] are subscribed as the
    listing subscribes them, an [accountsChanged] event whose payload has
    length 0 resets the whole wallet to [initialState]: accounts, balance
    and chain id are cleared together.  [updateWallet] is not called, so no
    request leaves the component, and [refreshChain] does not run. *)
Theorem accountsChanged_empty_resets
        (onClick : Comp -> option (Prog unit)) (c : Comp)
        (updateWallet : Value -> Prog unit) (payload : Value) :
  listeners c = [("accountsChanged", refreshAccounts updateWallet);
                 ("chainChanged", refreshChain)] ->
  lengthOf payload = 0 ->
  stepWith onClick (Emit "accountsChanged" payload) c
  = Some (withWallet {| accounts := []; balance := "";
                        chainId := VStr "" |} c).
Proof.
  intros Hl Hlen. unfold stepWith, emit. rewrite Hl. simpl.
  unfold refreshAccounts. rewrite Hlen. reflexivity.
Qed.

Lemma accountsChanged_empty_resets_witness :
  listeners subscribed
  = [("accountsChanged", refreshAccounts (fun _ => Ret tt));
     ("chainChanged", refreshChain)]
  /\ lengthOf (VArr []) = 0
  /\ stepWith (fun _ => None) (Emit "accountsChanged" (VArr [])) subscribed
     = Some (withWallet initialState subscribed).
Proof.
  split; [reflexivity|]. split; [reflexivity|].
  exact (@accountsChanged_empty_resets
           (fun _ => None) subscribed (fun _ => Ret tt) (VArr [])
           eq_refl eq_refl).
Defined.

End ReadmeAccountsFacts.
